(** * Context7 MCP server: a shallow embedding of [src/server.ts]

    The program registers two tools on an MCP server object, mounts the
    JSON body parser and three Express routes on the single endpoint
    [/mcp], and starts listening once the server object is connected to
    its HTTP transport.

    Values are JSON data, console output and the response object are
    explicit state, exceptions and promise rejections are a completion
    kind.  The MCP SDK entry points the file calls but does not define
    ([transport.handleRequest], [server.connect]) are section variables,
    and so is what Express and Node leave open (the value of a parsed
    body, the error page, the binding of a port): the theorems about the
    routes and the start-up hold whatever they do.  The registry behind
    [server.tool] is the one the specification describes. *)

From Stdlib Require Import ZArith String Ascii List Lia DecimalString.
From stdpp Require Import base option strings gmap.
Import ListNotations.

Local Open Scope Z_scope.
Local Open Scope string_scope.

(** ** JSON data *)

(** Object literals keep their properties in insertion order, which is
    the order [JSON.stringify] prints them in.  Numbers are the integers:
    the program's own are (status and error codes, the default port), and
    it never computes with one it is given. *)
#[local] Unset Elimination Schemes.
Inductive Json : Type :=
  | JNull
  | JBool (b : bool)
  | JNum (n : Z)
  | JStr (s : string)
  | JArr (items : list Json)
  | JObj (props : list (string * Json)).
#[local] Set Elimination Schemes.

(** [obj[k]]; [None] is JavaScript's [undefined]. *)
Fixpoint assoc {A : Type} (k : string) (kvs : list (string * A)) : option A :=
  match kvs with
  | [] => None
  | (k', v) :: rest => if String.eqb k k' then Some v else assoc k rest
  end.

Definition get_prop (k : string) (j : Json) : option Json :=
  match j with
  | JObj props => assoc k props
  | _ => None
  end.

(** ** Strings *)

Definition nl : string := String "010"%char EmptyString.
Definition dquote : string := String "034"%char EmptyString.
Definition backslash : string := String "092"%char EmptyString.

(** [String(n)] for an integer-valued number. *)
Definition string_of_Z (n : Z) : string := NilZero.string_of_int (Z.to_int n).

Definition hex_digit (n : nat) : ascii :=
  match n with
  | 0 => "0" | 1 => "1" | 2 => "2" | 3 => "3" | 4 => "4" | 5 => "5"
  | 6 => "6" | 7 => "7" | 8 => "8" | 9 => "9" | 10 => "a" | 11 => "b"
  | 12 => "c" | 13 => "d" | 14 => "e" | _ => "f"
  end%char%nat.

(** One character of a JSON string literal, as [JSON.stringify] quotes it. *)
Definition escape_char (c : ascii) : string :=
  let n := nat_of_ascii c in
  if Nat.eqb n 34 then backslash +:+ dquote
  else if Nat.eqb n 92 then backslash +:+ backslash
  else if Nat.eqb n 8 then backslash +:+ "b"
  else if Nat.eqb n 9 then backslash +:+ "t"
  else if Nat.eqb n 10 then backslash +:+ "n"
  else if Nat.eqb n 12 then backslash +:+ "f"
  else if Nat.eqb n 13 then backslash +:+ "r"
  else if Nat.ltb n 32 then
    backslash +:+ "u00" +:+
      String (hex_digit (Nat.div n 16)) (String (hex_digit (Nat.modulo n 16)) "")
  else String c "".

Fixpoint escape (s : string) : string :=
  match s with
  | EmptyString => ""
  | String c rest => escape_char c +:+ escape rest
  end.

Definition quote (s : string) : string := dquote +:+ escape s +:+ dquote.

Fixpoint join (sep : string) (parts : list string) : string :=
  match parts with
  | [] => ""
  | [p] => p
  | p :: rest => p +:+ sep +:+ join sep rest
  end.

(** [JSON.stringify(j)], without indentation. *)
Fixpoint JSON_stringify (j : Json) : string :=
  match j with
  | JNull => "null"
  | JBool true => "true"
  | JBool false => "false"
  | JNum n => string_of_Z n
  | JStr s => quote s
  | JArr items => "[" +:+ join "," (map JSON_stringify items) +:+ "]"
  | JObj props =>
      "{" +:+
      join "," (map (fun kv => quote (fst kv) +:+ ":" +:+ JSON_stringify (snd kv)) props)
      +:+ "}"
  end.

(** [text.includes(needle)]. *)
Fixpoint includes (text needle : string) : bool :=
  String.prefix needle text ||
  match text with
  | EmptyString => false
  | String _ rest => includes rest needle
  end.

(** The relation [includes] decides. *)
Definition Contains (text needle : string) : Prop :=
  exists pre post, text = pre +:+ needle +:+ post.

(** [a || b] on an optional string: [undefined] and the empty string are
    the falsy ones. *)
Definition or_else (a : option string) (b : string) : string :=
  match a with
  | None => b
  | Some "" => b
  | Some s => s
  end.

(** ** The world the program acts on *)

Inductive Stream := StdOut | StdErr.

(** One call of [console.log] (stdout) or [console.error] (stderr) with
    its arguments; [None] is an [undefined] argument. *)
Record ConsoleEntry := { stream : Stream; args : list (option Json) }.

(** The response object [res] of the request being served, as far as the
    client can observe it: nothing has gone out yet (the status code is
    still a property that can be set), the head has gone out with some of
    the body, or the response is complete. *)
Inductive ServerResponse :=
  | Fresh (status : Z)
  | HeadSent (status : Z) (sent : string)
  | Ended (status : Z) (sent : string).

Definition headersSent (r : ServerResponse) : bool :=
  match r with
  | Fresh _ => false
  | HeadSent _ _ | Ended _ _ => true
  end.

Definition statusCode (r : ServerResponse) : Z :=
  match r with
  | Fresh c | HeadSent c _ | Ended c _ => c
  end.

Definition body (r : ServerResponse) : string :=
  match r with
  | Fresh _ => ""
  | HeadSent _ b | Ended _ b => b
  end.

(** The response object Express hands to a route callback. *)
Definition new_response : ServerResponse := Fresh 200.

(** [process.env.PORT || 3000] is a string or the number 3000. *)
Inductive PortValue :=
  | PortString (s : string)
  | PortNumber (n : Z).

Record World := {
  console : list ConsoleEntry;
  res : ServerResponse;
  listening : option PortValue   (* the port [app.listen] was given *)
}.

Definition set_console (f : list ConsoleEntry -> list ConsoleEntry) (w : World) : World :=
  {| console := f (console w); res := res w; listening := listening w |}.
Definition set_res (f : ServerResponse -> ServerResponse) (w : World) : World :=
  {| console := console w; res := f (res w); listening := listening w |}.
Definition set_listening (p : option PortValue) (w : World) : World :=
  {| console := console w; res := res w; listening := p |}.

(** ** Computations: state, exceptions, process exit *)

(** How a statement, or an awaited promise, completes: normally with a
    value, by throwing (a rejected promise), or by ending the process. *)
Inductive Completion (A : Type) : Type :=
  | Normal (a : A)
  | Throw (e : Json)
  | Exited (code : Z).
Arguments Normal {A} a.
Arguments Throw {A} e.
Arguments Exited {A} code.

Definition M (A : Type) : Type := World -> Completion A * World.

Definition ret {A} (a : A) : M A := fun w => (Normal a, w).

Definition bind {A B} (m : M A) (k : A -> M B) : M B :=
  fun w =>
    match m w with
    | (Normal a, w') => k a w'
    | (Throw e, w') => (Throw e, w')
    | (Exited c, w') => (Exited c, w')
    end.

Definition throw {A} (e : Json) : M A := fun w => (Throw e, w).

(** [try { m } catch (error) { h error }], and [p.catch(h)] on a promise. *)
Definition try_catch {A} (m : M A) (h : Json -> M A) : M A :=
  fun w =>
    match m w with
    | (Throw e, w') => h e w'
    | r => r
    end.

(** [p.then(k)]. *)
Definition promise_then {A B} (p : M A) (k : A -> M B) : M B := bind p k.

Definition process_exit {A} (code : Z) : M A := fun w => (Exited code, w).

(** The sequencing notations [x ← m; k] and [m;; k] are stdpp's. *)
#[export] Instance M_ret : MRet M := @ret.
#[export] Instance M_bind : MBind M := fun A B k m => bind m k.

Definition console_log (a : list (option Json)) : M unit :=
  fun w => (Normal tt, set_console (fun c => (c ++ [{| stream := StdOut; args := a |}])%list) w).
Definition console_error (a : list (option Json)) : M unit :=
  fun w => (Normal tt, set_console (fun c => (c ++ [{| stream := StdErr; args := a |}])%list) w).

(** ** The two tools *)

Record ResolveLibraryIdParams := { libraryName : string }.

Record GetLibraryDocsParams := {
  context7CompatibleLibraryID : string;
  topic : option string;
  tokens : option Z
}.

Definition text_block (t : string) : Json :=
  JObj [("type", JStr "text"); ("text", JStr t)].

Definition resolveLibraryId (params : ResolveLibraryIdParams) : M Json :=
  console_log [Some (JStr ("Resolving library name: " +:+ libraryName params))] ;;
  mret (JObj [("content", JArr [text_block "/nextjs/nextjs/v14"])]).

Definition mockDocumentation (params : GetLibraryDocsParams) : string :=
  nl +:+
  "      // Context7 documentation for " +:+ context7CompatibleLibraryID params +:+ nl +:+
  "      // Topic: " +:+ or_else (topic params) "General" +:+ nl +:+
  "      // Example code for a Next.js App Router page:" +:+ nl +:+
  "      import { NextPage } from 'next';" +:+ nl +:+
  "      const HomePage: NextPage = () => {" +:+ nl +:+
  "        return <h1>Hello Context7!</h1>;" +:+ nl +:+
  "      };" +:+ nl +:+
  "      export default HomePage;" +:+ nl +:+
  "    ".

Definition getLibraryDocs (params : GetLibraryDocsParams) : M Json :=
  console_log [Some (JStr ("Fetching docs for: " +:+ context7CompatibleLibraryID params
                           +:+ " with topic: " +:+ or_else (topic params) "none"))] ;;
  mret (JObj [("content", JArr [text_block (mockDocumentation params)])]).

(** ** Parameter schemas *)

(** The zod types the two schemas are built from: [z.string()],
    [z.number()] and [.optional()]. *)
Inductive ZodType :=
  | ZString
  | ZNumber
  | ZOptional (t : ZodType).

Definition Schema : Type := list (string * ZodType).

Definition resolveLibraryId_schema : Schema :=
  [("libraryName", ZString)].

Definition getLibraryDocs_schema : Schema :=
  [("context7CompatibleLibraryID", ZString);
   ("topic", ZOptional ZString);
   ("tokens", ZOptional ZNumber)].

(** The value a schema type yields once checked. *)
Fixpoint TypeOf (t : ZodType) : Type :=
  match t with
  | ZString => string
  | ZNumber => Z
  | ZOptional t' => option (TypeOf t')
  end.

Fixpoint ParamsOf (s : Schema) : Type :=
  match s with
  | [] => unit
  | f :: rest => (TypeOf (snd f) * ParamsOf rest)%type
  end.

(** A registered operation: [server.tool(name, description, schema, callback)]. *)
Record Tool := {
  description : string;
  schema : Schema;
  callback : ParamsOf schema -> M Json
}.

Definition resolveLibraryId_tool : Tool :=
  {| description := "Resolves a general library name into a Context7-compatible ID";
     schema := resolveLibraryId_schema;
     callback := fun '(name, _) => resolveLibraryId {| libraryName := name |} |}.

Definition getLibraryDocs_tool : Tool :=
  {| description :=
       "Fetches up-to-date documentation for a library using its Context7-compatible ID";
     schema := getLibraryDocs_schema;
     callback := fun '(id, (tp, (tk, _))) =>
       getLibraryDocs {| context7CompatibleLibraryID := id; topic := tp; tokens := tk |} |}.

(** ** Operation registry *)

(** Modelled from the spec: the operation registry of the MCP SDK
    ([McpServer]) and its schema check (zod) are not part of [server.ts].
    What follows is the registry of the specification, sections 3, 4.1 and
    7: [register], [resolve], [validate], and the three error kinds. *)
Inductive Reason := MissingRequired | TypeMismatch | UnknownParameter.

(** Modelled from the spec: [ValidationError{field, reason}]. *)
Record ValidationError := { field : string; reason : Reason }.

(** Modelled from the spec: the error kinds of the registry. *)
Inductive OperationError :=
  | DuplicateOperationError (name : string)
  | UnknownOperationError (name : string)
  | InvalidParams (e : ValidationError).

(** Modelled from the spec: one parameter against its schema type; a
    required one must be present, and a present one must have the type. *)
Fixpoint parse (t : ZodType) (v : option Json) : Reason + TypeOf t :=
  match t return Reason + TypeOf t with
  | ZString =>
      match v with
      | None => inl MissingRequired
      | Some (JStr s) => inr s
      | Some _ => inl TypeMismatch
      end
  | ZNumber =>
      match v with
      | None => inl MissingRequired
      | Some (JNum n) => inr n
      | Some _ => inl TypeMismatch
      end
  | ZOptional t' =>
      match v with
      | None => inr None
      | Some _ =>
          match parse t' v with
          | inl r => inl r
          | inr x => inr (Some x)
          end
      end
  end.

(** Modelled from the spec: the parameters of a schema, in its order. *)
Fixpoint parse_fields (s : Schema) (rawParams : list (string * Json))
  : ValidationError + ParamsOf s :=
  match s return ValidationError + ParamsOf s with
  | [] => inr tt
  | f :: rest =>
      match parse (snd f) (assoc (fst f) rawParams) with
      | inl r => inl {| field := fst f; reason := r |}
      | inr v =>
          match parse_fields rest rawParams with
          | inl e => inl e
          | inr vs => inr (v, vs)
          end
      end
  end.

(** Modelled from the spec: the first parameter the schema does not know. *)
Definition unknown_parameter (s : Schema) (rawParams : list (string * Json))
  : option string :=
  fst <$> List.find (fun kv => negb (bool_decide (is_Some (assoc (fst kv) s)))) rawParams.

(** Modelled from the spec: [validate(name, rawParams) -> typedParams],
    for the operation [name] resolves to. *)
Definition validate (t : Tool) (rawParams : list (string * Json))
  : ValidationError + ParamsOf (schema t) :=
  match parse_fields (schema t) rawParams with
  | inl e => inl e
  | inr typed =>
      match unknown_parameter (schema t) rawParams with
      | Some k => inl {| field := k; reason := UnknownParameter |}
      | None => inr typed
      end
  end.

(** Modelled from the spec: [register(descriptor, handler)]. *)
Definition register (name : string) (t : Tool) (reg : gmap string Tool)
  : OperationError + gmap string Tool :=
  match reg !! name with
  | Some _ => inl (DuplicateOperationError name)
  | None => inr (<[name := t]> reg)
  end.

(** Modelled from the spec: [resolve(name) -> handler]. *)
Definition resolve (reg : gmap string Tool) (name : string) : OperationError + Tool :=
  match reg !! name with
  | Some t => inr t
  | None => inl (UnknownOperationError name)
  end.

(** The registry after the two [server.tool] calls. *)
Definition registry : gmap string Tool :=
  <["get-library-docs" := getLibraryDocs_tool]>
    (<["resolve-library-id" := resolveLibraryId_tool]> ∅).

(** Modelled from the spec: what a call yields: the handler's result, or
    a structured error. *)
Inductive Outcome :=
  | Result (r : Json)
  | Error (e : OperationError).

(** Modelled from the spec: the dispatch of section 2: the registry
    resolves the operation by name, its parameters are validated, and only
    then the handler executes with the typed parameters. *)
Definition call_tool (reg : gmap string Tool) (name : string)
    (rawParams : list (string * Json)) : M Outcome :=
  match resolve reg name with
  | inl e => mret (Error e)
  | inr t =>
      match validate t rawParams with
      | inl e => mret (Error (InvalidParams e))
      | inr typed => r ← callback t typed; mret (Result r)
      end
  end.

(** ** The response object *)

Definition ERR_HTTP_HEADERS_SENT : Json := JStr "ERR_HTTP_HEADERS_SENT".

(** [res.headersSent]. *)
Definition res_headersSent : M bool := fun w => (Normal (headersSent (res w)), w).

(** [res.writeHead(code)]: refused once the head has gone out. *)
Definition res_writeHead (code : Z) : M unit :=
  fun w =>
    match res w with
    | Fresh _ => (Normal tt, set_res (fun _ => HeadSent code "") w)
    | _ => (Throw ERR_HTTP_HEADERS_SENT, w)
    end.

(** [res.end(chunk)]: the last chunk; a complete response stays as it is. *)
Definition res_end (chunk : string) : M unit :=
  fun w =>
    match res w with
    | Fresh c => (Normal tt, set_res (fun _ => Ended c chunk) w)
    | HeadSent c b => (Normal tt, set_res (fun _ => Ended c (b +:+ chunk)) w)
    | Ended _ _ => (Normal tt, w)
    end.

(** [res.status(code)]: sets the status code of a head still to be sent. *)
Definition res_status (code : Z) : M unit :=
  fun w =>
    match res w with
    | Fresh _ => (Normal tt, set_res (fun _ => Fresh code) w)
    | _ => (Normal tt, w)
    end.

(** [res.json(obj)]: sets the JSON headers, which is refused once the head
    has gone out, and sends the serialized object as the whole body. *)
Definition res_json (obj : Json) : M unit :=
  fun w =>
    match res w with
    | Fresh _ => res_end (JSON_stringify obj) w
    | _ => (Throw ERR_HTTP_HEADERS_SENT, w)
    end.

(** ** JSON text

    The grammar [JSON.parse] accepts, read character by character with
    the stack of open brackets. *)

Definition is_ws (c : ascii) : bool :=
  match c with
  | " " | "009" | "010" | "013" => true
  | _ => false
  end%char.

Definition is_digit (c : ascii) : bool :=
  let n := nat_of_ascii c in (48 <=? n)%nat && (n <=? 57)%nat.

Definition is_hex (c : ascii) : bool :=
  let n := nat_of_ascii c in
  is_digit c || ((65 <=? n)%nat && (n <=? 70)%nat) || ((97 <=? n)%nat && (n <=? 102)%nat).

Definition is_exp (c : ascii) : bool :=
  match c with "e" | "E" => true | _ => false end%char.

(** What an open bracket waits for. *)
Inductive Ctx := InArray | InObject.

(** Where the reader of a JSON text stands. *)
Inductive Mode :=
  | MValue                      (* a value must start *)
  | MArrFirst                   (* after [[]: a value, or the end of the array *)
  | MObjFirst                   (* after [{]: a key, or the end of the object *)
  | MKey                        (* after a comma in an object: a key *)
  | MColon                      (* after a key: the colon *)
  | MAfter                      (* after a value: a comma, a closing bracket *)
  | MStr (key : bool)           (* inside a string *)
  | MEsc (key : bool)           (* after a backslash *)
  | MHex (key : bool) (n : nat) (* inside [\u], [S n] digits to come *)
  | MLit (rest : string)        (* inside [true], [false], [null] *)
  | MMinus | MZero | MInt | MDot | MFrac | MExp0 | MExpSign | MExp.

Definition start_value (c : ascii) (stack : list Ctx) : option (Mode * list Ctx) :=
  match c with
  | "{" => Some (MObjFirst, InObject :: stack)
  | "[" => Some (MArrFirst, InArray :: stack)
  | "034" => Some (MStr false, stack)
  | "-" => Some (MMinus, stack)
  | "0" => Some (MZero, stack)
  | "t" => Some (MLit "rue", stack)
  | "f" => Some (MLit "alse", stack)
  | "n" => Some (MLit "ull", stack)
  | _ => if is_digit c then Some (MInt, stack) else None
  end%char.

Definition after_value (c : ascii) (stack : list Ctx) : option (Mode * list Ctx) :=
  if is_ws c then Some (MAfter, stack)
  else
    match c, stack with
    | ",", InArray :: _ => Some (MValue, stack)
    | ",", InObject :: _ => Some (MKey, stack)
    | "]", InArray :: rest => Some (MAfter, rest)
    | "}", InObject :: rest => Some (MAfter, rest)
    | _, _ => None
    end%char.

Definition step (st : Mode * list Ctx) (c : ascii) : option (Mode * list Ctx) :=
  let (mode, stack) := st in
  match mode with
  | MValue => if is_ws c then Some st else start_value c stack
  | MArrFirst =>
      if is_ws c then Some st
      else match c, stack with
           | "]"%char, InArray :: rest => Some (MAfter, rest)
           | _, _ => start_value c stack
           end
  | MObjFirst =>
      if is_ws c then Some st
      else match c, stack with
           | "}"%char, InObject :: rest => Some (MAfter, rest)
           | "034"%char, _ => Some (MStr true, stack)
           | _, _ => None
           end
  | MKey =>
      if is_ws c then Some st
      else match c with
           | "034"%char => Some (MStr true, stack)
           | _ => None
           end
  | MColon =>
      if is_ws c then Some st
      else match c with
           | ":"%char => Some (MValue, stack)
           | _ => None
           end
  | MAfter => after_value c stack
  | MStr key =>
      match c with
      | "034"%char => Some (if key then MColon else MAfter, stack)
      | "092"%char => Some (MEsc key, stack)
      | _ => if (nat_of_ascii c <? 32)%nat then None else Some st
      end
  | MEsc key =>
      match c with
      | "034" | "092" | "/" | "b" | "f" | "n" | "r" | "t" => Some (MStr key, stack)
      | "u" => Some (MHex key 3, stack)
      | _ => None
      end%char
  | MHex key n =>
      if is_hex c
      then Some (match n with O => MStr key | S n' => MHex key n' end, stack)
      else None
  | MLit rest =>
      match rest with
      | String d rest' =>
          if Ascii.eqb c d
          then Some (match rest' with EmptyString => MAfter | _ => MLit rest' end, stack)
          else None
      | EmptyString => None
      end
  | MMinus =>
      match c with
      | "0"%char => Some (MZero, stack)
      | _ => if is_digit c then Some (MInt, stack) else None
      end
  | MZero =>
      match c with
      | "."%char => Some (MDot, stack)
      | _ => if is_exp c then Some (MExp0, stack) else after_value c stack
      end
  | MInt =>
      match c with
      | "."%char => Some (MDot, stack)
      | _ => if is_digit c then Some st
             else if is_exp c then Some (MExp0, stack) else after_value c stack
      end
  | MDot => if is_digit c then Some (MFrac, stack) else None
  | MFrac =>
      if is_digit c then Some st
      else if is_exp c then Some (MExp0, stack) else after_value c stack
  | MExp0 =>
      match c with
      | "+" | "-" => Some (MExpSign, stack)
      | _ => if is_digit c then Some (MExp, stack) else None
      end%char
  | MExpSign => if is_digit c then Some (MExp, stack) else None
  | MExp => if is_digit c then Some st else after_value c stack
  end.

Fixpoint run (st : Mode * list Ctx) (text : string) : option (Mode * list Ctx) :=
  match text with
  | EmptyString => Some st
  | String c rest =>
      match step st c with
      | Some st' => run st' rest
      | None => None
      end
  end.

(** A complete value has been read and no bracket is open. *)
Definition complete (st : Mode * list Ctx) : bool :=
  match st with
  | (MAfter, []) | (MZero, []) | (MInt, []) | (MFrac, []) | (MExp, []) => true
  | _ => false
  end.

(** Whether [JSON.parse(text)] returns rather than throws. *)
Definition json_syntax (text : string) : bool :=
  match run (MValue, []) text with
  | Some st => complete st
  | None => false
  end.

(** ** Requests on the wire *)

(** Why the body parser gives up on a body before it parses it. *)
Inductive ReadError :=
  | UnsupportedCharset
  | UnsupportedEncoding
  | RequestAborted
  | SizeMismatch.

Definition read_error_status (e : ReadError) : Z :=
  match e with
  | UnsupportedCharset | UnsupportedEncoding => 415
  | RequestAborted | SizeMismatch => 400
  end.

(** What the JSON body parser finds, which the headers and the stream of
    the request decide: nothing for it (no body, or a [Content-Type]
    other than [application/json]), a body it cannot read, or the decoded
    text of the body. *)
Inductive HttpBody :=
  | NoJsonBody
  | Unreadable (e : ReadError)
  | JsonBody (text : string).

Record HttpRequest := {
  http_headers : list (string * string);
  http_body : HttpBody
}.

(** The parser's default bound on a body, ['100kb']. *)
Definition json_limit : Z := 102400.

(** The first character that is not white space. *)
Fixpoint first_char (text : string) : option ascii :=
  match text with
  | EmptyString => None
  | String c rest => if is_ws c then first_char rest else Some c
  end.

(** The parser's strict mode: only objects and arrays. *)
Definition strict_start (text : string) : bool :=
  match first_char text with
  | Some "{"%char | Some "["%char => true
  | _ => false
  end.

(** What the parser does with a request: it hands it on with [req.body]
    set, or refuses it with an HTTP status. *)
Inductive Parsed :=
  | Pass (b : option Json)
  | Refuse (status : Z).

(** ** Ports *)

Definition ERR_SOCKET_BAD_PORT : Json := JStr "ERR_SOCKET_BAD_PORT".

Fixpoint all_digits (s : string) : bool :=
  match s with
  | EmptyString => true
  | String c rest => is_digit c && all_digits rest
  end.

Fixpoint decimal_value (acc : Z) (s : string) : Z :=
  match s with
  | EmptyString => acc
  | String c rest => decimal_value (10 * acc + Z.of_nat (nat_of_ascii c - 48)) rest
  end.

(** The number a string of decimal digits writes. *)
Definition decimal (s : string) : option Z :=
  match s with
  | EmptyString => None
  | _ => if all_digits s then Some (decimal_value 0 s) else None
  end.

(** A port number outside 0..65535, as a number or written in decimal
    digits: [listen] throws on it before it binds anything. *)
Definition out_of_range (p : PortValue) : bool :=
  match p with
  | PortNumber n => ((n <? 0) || (65535 <? n))%Z
  | PortString s =>
      match decimal s with
      | Some n => (65535 <? n)%Z
      | None => false
      end
  end.

(** ** Routes on [/mcp] *)

(** A request as a route callback sees it, once the body parser has
    handed it on; [req_body] is [req.body] as the parser left it ([None]
    when it left none). *)
Record Request := {
  req_headers : list (string * string);
  req_body : option Json
}.

Definition internal_server_error : Json :=
  JObj [("jsonrpc", JStr "2.0");
        ("error", JObj [("code", JNum (-32603)); ("message", JStr "Internal server error")]);
        ("id", JNull)].

Definition method_not_allowed : Json :=
  JObj [("jsonrpc", JStr "2.0");
        ("error", JObj [("code", JNum (-32000)); ("message", JStr "Method not allowed.")]);
        ("id", JNull)].

Inductive Method := GET | POST | DELETE.

Section Server.

(** [transport.handleRequest(req, res, req.body)] of the MCP SDK: it may
    print, write to [res], throw. *)
Variable handleRequest : Request -> option Json -> M unit.

(** [server.connect(transport)] of the MCP SDK: it holds no reference to
    the Express application; it may print, reject, end the process. *)
Variable connect : list ConsoleEntry -> Completion unit * list ConsoleEntry.

(** What binding a port does, for a port [listen] does not refuse at
    once: the endpoint listens, the call throws, or the process ends on
    the error event of the server. *)
Variable listen : PortValue -> Completion unit.

(** The value [JSON.parse] gives for a text of the JSON grammar. *)
Variable JSON_parse : string -> Json.

(** [req.body] of a request the body parser steps aside for: the empty
    object or [undefined], by the version of Express. *)
Variable skipped_body : option Json.

(** What the error handler of Express prints and the page it sends for a
    request the body parser refuses with a status. *)
Variable express_error : HttpRequest -> Z -> list ConsoleEntry * string.

Definition post_mcp (req : Request) : M unit :=
  console_log [Some (JStr "Received MCP request:"); req_body req] ;;
  try_catch (handleRequest req (req_body req))
    (fun error =>
       console_error [Some (JStr "Error handling MCP request:"); Some error] ;;
       sent ← res_headersSent;
       if negb sent
       then res_status 500 ;; res_json internal_server_error
       else mret tt).

Definition get_mcp (req : Request) : M unit :=
  console_log [Some (JStr "Received GET MCP request")] ;;
  res_writeHead 405 ;;
  res_end (JSON_stringify method_not_allowed).

Definition delete_mcp (req : Request) : M unit :=
  console_log [Some (JStr "Received DELETE MCP request")] ;;
  res_writeHead 405 ;;
  res_end (JSON_stringify method_not_allowed).

(** The callbacks mounted by [app.post], [app.get] and [app.delete]. *)
Definition route (m : Method) : Request -> M unit :=
  match m with
  | POST => post_mcp
  | GET => get_mcp
  | DELETE => delete_mcp
  end.

(** A request that has passed the body parser: its callback runs on a
    response object of its own. *)
Definition serve (m : Method) (req : Request) : M unit :=
  fun w => route m req (set_res (fun _ => new_response) w).

(** [express.json()], mounted with [app.use] before the routes: it runs
    on every request, whatever its method. *)
Definition express_json (r : HttpRequest) : Parsed :=
  match http_body r with
  | NoJsonBody => Pass skipped_body
  | Unreadable e => Refuse (read_error_status e)
  | JsonBody text =>
      if (json_limit <? Z.of_nat (String.length text))%Z then Refuse 413
      else if String.eqb text "" then Pass (Some (JObj []))
      else if strict_start text && json_syntax text then Pass (Some (JSON_parse text))
      else Refuse 400
  end.

(** One request to [/mcp]: the body parser, then the callback of the
    method; a request the parser refuses is answered by the error handler
    of Express with the parser's status, and no callback runs. *)
Definition app_request (m : Method) (r : HttpRequest) : M unit :=
  match express_json r with
  | Pass b => serve m {| req_headers := http_headers r; req_body := b |}
  | Refuse status =>
      fun w =>
        (Normal tt,
         {| console := console w ++ fst (express_error r status);
            res := Ended status (snd (express_error r status));
            listening := listening w |})
  end.

(** ** Start-up *)

Definition setupServer : M unit :=
  fun w =>
    let (r, c) := connect (console w) in
    (r, set_console (fun _ => c) w).

(** [process.env.PORT || 3000]. *)
Definition PORT (env : gmap string string) : PortValue :=
  match env !! "PORT" with
  | None => PortNumber 3000
  | Some "" => PortNumber 3000
  | Some s => PortString s
  end.

(** [`${port}`]. *)
Definition port_text (p : PortValue) : string :=
  match p with
  | PortString s => s
  | PortNumber n => string_of_Z n
  end.

(** [app.listen(port, callback)]: the port it is given is recorded; on a
    port number out of range it throws; the callback runs once the
    endpoint listens. *)
Definition app_listen (port : PortValue) (callback : M unit) : M unit :=
  fun w =>
    let w' := set_listening (Some port) w in
    if out_of_range port then (Throw ERR_SOCKET_BAD_PORT, w')
    else
      match listen port with
      | Normal _ => callback w'
      | Throw e => (Throw e, w')
      | Exited code => (Exited code, w')
      end.

Definition main (env : gmap string string) : M unit :=
  try_catch
    (promise_then setupServer (fun _ =>
       app_listen (PORT env)
         (console_log [Some (JStr ("MCP Context7 Server listening on port "
                                     +:+ port_text (PORT env)))])))
    (fun error =>
       console_error [Some (JStr "Failed to set up the server:"); Some error] ;;
       process_exit 1).

End Server.

(** The world in which the [POST] callback hands a request to the
    transport: a response object of its own, the request line printed. *)
Definition received (req : Request) (w : World) : World :=
  set_console
    (fun c => (c ++ [{| stream := StdOut;
                        args := [Some (JStr "Received MCP request:"); req_body req] |}])%list)
    (set_res (fun _ => new_response) w).

(** The process as it starts. *)
Definition initial_world : World :=
  {| console := []; res := new_response; listening := None |}.

(** ** What a caller reads off a tool result *)

(** The text of a content block of kind ["text"]. *)
Definition block_text (b : Json) : option string :=
  match get_prop "type" b, get_prop "text" b with
  | Some (JStr "text"), Some (JStr t) => Some t
  | _, _ => None
  end.

(** The texts of the content blocks of a result, when all are text blocks. *)
Definition text_blocks (r : Json) : option (list string) :=
  match get_prop "content" r with
  | Some (JArr blocks) => mapM block_text blocks
  | _ => None
  end.

(** ** Wire text of the two error envelopes *)

Definition q (s : string) : string := dquote +:+ s +:+ dquote.

Definition envelope_text (code message : string) : string :=
  "{" +:+ q "jsonrpc" +:+ ":" +:+ q "2.0" +:+ "," +:+
  q "error" +:+ ":{" +:+ q "code" +:+ ":" +:+ code +:+ "," +:+
  q "message" +:+ ":" +:+ q message +:+ "}," +:+
  q "id" +:+ ":null}".

(** * Properties *)

(** ** Strings *)

Lemma prefix_app (s r : string) : String.prefix s (s +:+ r) = true.
Proof.
  induction s as [|c s IH]; simpl.
  - now destruct r.
  - destruct (ascii_dec c c) as [_|Hne]; [exact IH | now destruct Hne].
Qed.

Lemma prefix_inv (s t : string) :
  String.prefix s t = true -> exists r, t = s +:+ r.
Proof.
  revert s; induction t as [|d t IH]; intros [|c s] H; simpl in *.
  - now exists "".
  - discriminate.
  - now exists (String d t).
  - destruct (ascii_dec c d) as [->|]; [|discriminate].
    destruct (IH s H) as [r ->]. now exists r.
Qed.

Lemma includes_Contains (text needle : string) :
  includes text needle = true <-> Contains text needle.
Proof.
  split.
  - induction text as [|c text IH]; cbn [includes]; intros H.
    + apply orb_true_iff in H as [H|H]; [|discriminate].
      destruct (prefix_inv _ _ H) as [r Hr]. now exists "", r.
    + apply orb_true_iff in H as [H|H].
      * destruct (prefix_inv _ _ H) as [r Hr]. now exists "", r.
      * destruct (IH H) as (pre & post & ->). now exists (String c pre), post.
  - intros (pre & post & ->). induction pre as [|c pre IH].
    + change ("" +:+ needle +:+ post) with (needle +:+ post).
      destruct (needle +:+ post) eqn:E; cbn [includes];
        rewrite <- E, prefix_app; reflexivity.
    + change (String c pre +:+ needle +:+ post)
        with (String c (pre +:+ needle +:+ post)).
      cbn [includes]. rewrite IH. apply orb_true_r.
Qed.

Lemma append_assoc (a b c : string) : a +:+ b +:+ c = (a +:+ b) +:+ c.
Proof.
  induction a as [|x a IH]; [reflexivity|].
  change (String x (a +:+ b +:+ c) = String x ((a +:+ b) +:+ c)).
  now rewrite IH.
Qed.

Lemma Contains_app_r (a b needle : string) :
  Contains b needle -> Contains (a +:+ b) needle.
Proof.
  intros (pre & post & ->). exists (a +:+ pre), post. apply append_assoc.
Qed.

Lemma Contains_app_l (a b : string) : Contains (a +:+ b) a.
Proof. now exists "", b. Qed.

(** ** The tools *)

(** C1: a [resolve-library-id] call, whatever library name it carries,
    completes normally with a result that has no error field and whose
    content is exactly one text block, holding the fixed placeholder
    identifier. *)
Theorem resolveLibraryId_placeholder (params : ResolveLibraryIdParams) (w : World) :
  exists r,
    fst (resolveLibraryId params w) = Normal r /\
    text_blocks r = Some ["/nextjs/nextjs/v14"] /\
    get_prop "error" r = None /\
    get_prop "isError" r = None.
Proof.
  eexists. split; [reflexivity|]. repeat split.
Qed.

(** C2: a [get-library-docs] call that carries the identifier and neither
    optional parameter yields a single text block; its text is not empty
    and the identifier occurs in it. *)
Theorem getLibraryDocs_mentions_id (id : string) (w : World) :
  exists r text,
    fst (getLibraryDocs
           {| context7CompatibleLibraryID := id; topic := None; tokens := None |} w)
    = Normal r /\
    text_blocks r = Some [text] /\
    text <> "" /\
    Contains text id.
Proof.
  eexists. eexists. split; [reflexivity|]. split; [reflexivity|]. split.
  - discriminate.
  - unfold mockDocumentation; simpl context7CompatibleLibraryID.
    do 2 apply Contains_app_r. apply Contains_app_l.
Qed.

(** C3: for the identifier [/nextjs/nextjs/v14] and the topic [routing]
    the text block holds both the identifier and the word [routing]. *)
Theorem getLibraryDocs_nextjs_routing (tk : option Z) (w : World) :
  exists r text,
    fst (getLibraryDocs
           {| context7CompatibleLibraryID := "/nextjs/nextjs/v14";
              topic := Some "routing"; tokens := tk |} w)
    = Normal r /\
    text_blocks r = Some [text] /\
    Contains text "/nextjs/nextjs/v14" /\
    Contains text "routing".
Proof.
  eexists. eexists. split; [reflexivity|]. split; [reflexivity|].
  split; apply includes_Contains; vm_compute; reflexivity.
Qed.

(** C9: [tokens] does not reach the result: two calls with the same
    identifier and the same topic complete alike, console line included,
    whatever each carries as [tokens]. *)
Theorem getLibraryDocs_ignores_tokens (p1 p2 : GetLibraryDocsParams) (w : World) :
  context7CompatibleLibraryID p1 = context7CompatibleLibraryID p2 ->
  topic p1 = topic p2 ->
  getLibraryDocs p1 w = getLibraryDocs p2 w.
Proof.
  intros Hid Htopic.
  unfold getLibraryDocs, mockDocumentation. now rewrite Hid, Htopic.
Qed.

Lemma getLibraryDocs_ignores_tokens_witness :
  getLibraryDocs {| context7CompatibleLibraryID := "/vercel/next.js";
                    topic := Some "routing"; tokens := None |} initial_world
  = getLibraryDocs {| context7CompatibleLibraryID := "/vercel/next.js";
                      topic := Some "routing"; tokens := Some 5000 |} initial_world.
Proof.
  apply getLibraryDocs_ignores_tokens; reflexivity.
Defined.

(** C10: with no topic, or with the empty string as topic, the text reads
    [Topic: General]; the empty topic is not echoed, the call completes
    as the one without a topic does. *)
Theorem getLibraryDocs_general_topic (p : GetLibraryDocsParams) (w : World) :
  topic p = None \/ topic p = Some "" ->
  (exists r text,
     fst (getLibraryDocs p w) = Normal r /\
     text_blocks r = Some [text] /\
     Contains text "Topic: General") /\
  getLibraryDocs p w
  = getLibraryDocs {| context7CompatibleLibraryID := context7CompatibleLibraryID p;
                      topic := None; tokens := tokens p |} w.
Proof.
  intros H.
  assert (Hor : forall d, or_else (topic p) d = d) by (intros d; now destruct H as [-> | ->]).
  split.
  - eexists. eexists. split; [reflexivity|]. split; [reflexivity|].
    unfold mockDocumentation. rewrite Hor.
    do 4 apply Contains_app_r.
    apply includes_Contains. vm_compute. reflexivity.
  - unfold getLibraryDocs, mockDocumentation. simpl. now rewrite !Hor.
Qed.

Lemma getLibraryDocs_general_topic_witness :
  exists r text,
    fst (getLibraryDocs {| context7CompatibleLibraryID := "/vercel/next.js";
                           topic := Some ""; tokens := None |} initial_world)
    = Normal r /\
    text_blocks r = Some [text] /\
    Contains text "Topic: General".
Proof.
  apply (getLibraryDocs_general_topic
           {| context7CompatibleLibraryID := "/vercel/next.js";
              topic := Some ""; tokens := None |} initial_world).
  right; reflexivity.
Defined.

(** ** The registry *)

Lemma registry_registered :
  match register "resolve-library-id" resolveLibraryId_tool ∅ with
  | inl e => inl e
  | inr reg => register "get-library-docs" getLibraryDocs_tool reg
  end = inr registry.
Proof. reflexivity. Qed.

Lemma call_tool_invalid (name : string) (t : Tool)
    (rawParams : list (string * Json)) (e : ValidationError) (w : World) :
  registry !! name = Some t ->
  validate t rawParams = inl e ->
  call_tool registry name rawParams w = (Normal (Error (InvalidParams e)), w).
Proof.
  intros Hreg Hval. unfold call_tool, resolve. rewrite Hreg, Hval. reflexivity.
Qed.

(** Parameters that pass validation reach the handler, typed. *)
Lemma call_tool_resolveLibraryId (name : string) (w : World) :
  call_tool registry "resolve-library-id" [("libraryName", JStr name)] w
  = (r ← resolveLibraryId {| libraryName := name |}; mret (Result r)) w.
Proof. reflexivity. Qed.

Lemma call_tool_getLibraryDocs (id tp : string) (tk : Z) (w : World) :
  call_tool registry "get-library-docs"
    [("context7CompatibleLibraryID", JStr id); ("topic", JStr tp); ("tokens", JNum tk)] w
  = (r ← getLibraryDocs {| context7CompatibleLibraryID := id;
                           topic := Some tp; tokens := Some tk |};
     mret (Result r)) w.
Proof. reflexivity. Qed.

Lemma call_tool_unknown (name : string) (rawParams : list (string * Json)) (w : World) :
  registry !! name = None ->
  call_tool registry name rawParams w = (Normal (Error (UnknownOperationError name)), w).
Proof. intros H. unfold call_tool, resolve. now rewrite H. Qed.

(** C4: a [get-library-docs] call without [context7CompatibleLibraryID]
    yields a validation error naming that field, never a result, and the
    handler has not run: the world, console included, is as before.  The
    same holds whenever validation fails, and a value of the wrong type
    for the field is such a failure. *)
Theorem getLibraryDocs_requires_id (rawParams : list (string * Json)) (w : World) :
  (assoc "context7CompatibleLibraryID" rawParams = None ->
   call_tool registry "get-library-docs" rawParams w
   = (Normal (Error (InvalidParams
        {| field := "context7CompatibleLibraryID"; reason := MissingRequired |})), w)) /\
  (forall v,
     assoc "context7CompatibleLibraryID" rawParams = Some v ->
     (forall s, v <> JStr s) ->
     call_tool registry "get-library-docs" rawParams w
     = (Normal (Error (InvalidParams
          {| field := "context7CompatibleLibraryID"; reason := TypeMismatch |})), w)) /\
  (forall e,
     validate getLibraryDocs_tool rawParams = inl e ->
     call_tool registry "get-library-docs" rawParams w
     = (Normal (Error (InvalidParams e)), w)).
Proof.
  split; [|split].
  - intros Hmissing. apply (call_tool_invalid _ getLibraryDocs_tool); [reflexivity|].
    unfold validate; simpl. now rewrite Hmissing.
  - intros v Hv Hstr. apply (call_tool_invalid _ getLibraryDocs_tool); [reflexivity|].
    unfold validate; simpl. rewrite Hv.
    destruct v; try reflexivity. now destruct (Hstr s).
  - intros e He. now apply (call_tool_invalid _ getLibraryDocs_tool).
Qed.

Lemma getLibraryDocs_requires_id_witness :
  call_tool registry "get-library-docs" [("topic", JStr "routing")] initial_world
  = (Normal (Error (InvalidParams
       {| field := "context7CompatibleLibraryID"; reason := MissingRequired |})),
     initial_world) /\
  call_tool registry "get-library-docs"
    [("context7CompatibleLibraryID", JNum 14)] initial_world
  = (Normal (Error (InvalidParams
       {| field := "context7CompatibleLibraryID"; reason := TypeMismatch |})),
     initial_world).
Proof.
  split.
  - apply (proj1 (getLibraryDocs_requires_id [("topic", JStr "routing")] initial_world)).
    reflexivity.
  - apply (proj1 (proj2 (getLibraryDocs_requires_id
                           [("context7CompatibleLibraryID", JNum 14)] initial_world))
             (JNum 14)); [reflexivity | discriminate].
Defined.

(** ** The routes *)

Lemma method_not_allowed_text :
  JSON_stringify method_not_allowed = envelope_text "-32000" "Method not allowed.".
Proof. reflexivity. Qed.

Lemma internal_server_error_text :
  JSON_stringify internal_server_error = envelope_text "-32603" "Internal server error".
Proof. reflexivity. Qed.

(** The callbacks of [GET] and [DELETE], on a request the body parser has
    handed on. *)
Lemma get_delete_callbacks
    (handleRequest : Request -> option Json -> M unit) (req : Request) (w : World) :
  serve handleRequest GET req w
  = (Normal tt,
     {| console := console w ++
          [{| stream := StdOut; args := [Some (JStr "Received GET MCP request")] |}];
        res := Ended 405 (envelope_text "-32000" "Method not allowed.");
        listening := listening w |}) /\
  serve handleRequest DELETE req w
  = (Normal tt,
     {| console := console w ++
          [{| stream := StdOut; args := [Some (JStr "Received DELETE MCP request")] |}];
        res := Ended 405 (envelope_text "-32000" "Method not allowed.");
        listening := listening w |}).
Proof. split; reflexivity. Qed.

Lemma post_no_fault
    (handleRequest : Request -> option Json -> M unit) (req : Request) (w w1 : World) :
  handleRequest req (req_body req) (received req w) = (Normal tt, w1) ->
  serve handleRequest POST req w = (Normal tt, w1).
Proof.
  intros Hok.
  unfold serve, route, post_mcp, mbind, M_bind, bind, try_catch.
  simpl. fold (received req w). now rewrite Hok.
Qed.

(** The callback of [POST], on a request the body parser has handed on,
    when the transport throws. *)
Lemma post_callback_fault
    (handleRequest : Request -> option Json -> M unit) (req : Request) (w : World) :
  (forall e w1,
     handleRequest req (req_body req) (received req w) = (Throw e, w1) ->
     serve handleRequest POST req w
     = (Normal tt,
        {| console := console w1 ++
             [{| stream := StdErr;
                 args := [Some (JStr "Error handling MCP request:"); Some e] |}];
           res := if headersSent (res w1) then res w1
                  else Ended 500 (envelope_text "-32603" "Internal server error");
           listening := listening w1 |})) /\
  (forall e, fst (serve handleRequest POST req w) <> Throw e).
Proof.
  split.
  - intros e w1 Hthrow.
    unfold serve, route, post_mcp, mbind, M_bind, bind, try_catch.
    simpl. fold (received req w). rewrite Hthrow.
    destruct w1 as [c1 r1 l1]; destruct r1; reflexivity.
  - intros e.
    unfold serve, route, post_mcp, mbind, M_bind, bind, try_catch. simpl.
    destruct (handleRequest req (req_body req) _) as [[[]|e1|code] [c1 r1 l1]];
      try discriminate.
    destruct r1; discriminate.
Qed.

(** ** The body parser in front of the routes *)

Section Requests.

Variable handleRequest : Request -> option Json -> M unit.
Variable JSON_parse : string -> Json.
Variable skipped_body : option Json.
Variable express_error : HttpRequest -> Z -> list ConsoleEntry * string.

(** The parser refuses with 400, 413 or 415 only. *)
Lemma refuse_status (r : HttpRequest) (status : Z) :
  express_json JSON_parse skipped_body r = Refuse status ->
  status = 400 \/ status = 413 \/ status = 415.
Proof.
  unfold express_json. destruct (http_body r) as [|[]|text]; simpl.
  - discriminate.
  - intros [= <-]; auto.
  - intros [= <-]; auto.
  - intros [= <-]; auto.
  - intros [= <-]; auto.
  - destruct (json_limit <? _)%Z; [intros [= <-]; auto|].
    destruct (String.eqb text ""); [discriminate|].
    destruct (strict_start text && json_syntax text); [discriminate|].
    intros [= <-]; auto.
Qed.

(** A body that is not empty and not a JSON text is refused: with 400, or
    with 413 when it is over the bound as well. *)
Lemma malformed_refused (r : HttpRequest) (text : string) :
  http_body r = JsonBody text ->
  text <> "" ->
  json_syntax text = false ->
  express_json JSON_parse skipped_body r = Refuse (if (json_limit <? Z.of_nat (String.length text))%Z
                           then 413 else 400).
Proof.
  intros Hb Hne Hbad. unfold express_json. rewrite Hb.
  destruct (json_limit <? _)%Z; [reflexivity|].
  destruct (String.eqb_spec text ""); [contradiction|].
  now rewrite Hbad, andb_false_r.
Qed.

Lemma app_request_refused (m : Method) (r : HttpRequest) (status : Z) (w : World) :
  express_json JSON_parse skipped_body r = Refuse status ->
  app_request handleRequest JSON_parse skipped_body express_error m r w
  = (Normal tt,
     {| console := console w ++ fst (express_error r status);
        res := Ended status (snd (express_error r status));
        listening := listening w |}).
Proof. intros H. unfold app_request. now rewrite H. Qed.

(** C5, as the program has it: a [GET] or [DELETE] request the body
    parser hands on completes with status 405 and the envelope of code
    -32000, message [Method not allowed.] and [id] null as the whole
    body; the transport does not occur in the outcome.  A request the
    parser refuses is answered with the parser's status, which is not
    405, and its callback does not run; a body that is not a JSON text is
    such a request. *)
Theorem get_delete_after_body_parser (m : Method) (r : HttpRequest) (w : World) :
  m = GET \/ m = DELETE ->
  (forall b,
     express_json JSON_parse skipped_body r = Pass b ->
     app_request handleRequest JSON_parse skipped_body express_error m r w
     = (Normal tt,
        {| console := console w ++
             [{| stream := StdOut;
                 args := [Some (JStr (match m with
                                      | DELETE => "Received DELETE MCP request"
                                      | _ => "Received GET MCP request"
                                      end))] |}];
           res := Ended 405 (envelope_text "-32000" "Method not allowed.");
           listening := listening w |})) /\
  (forall status,
     express_json JSON_parse skipped_body r = Refuse status ->
     status <> 405 /\
     app_request handleRequest JSON_parse skipped_body express_error m r w
     = (Normal tt,
        {| console := console w ++ fst (express_error r status);
           res := Ended status (snd (express_error r status));
           listening := listening w |})) /\
  (forall text,
     http_body r = JsonBody text ->
     text <> "" ->
     json_syntax text = false ->
     exists status, express_json JSON_parse skipped_body r = Refuse status /\ (status = 400 \/ status = 413)).
Proof.
  intros Hm. split; [|split].
  - intros b Hb. unfold app_request. rewrite Hb.
    destruct Hm as [-> | ->]; apply get_delete_callbacks.
  - intros status Hs. split.
    + destruct (refuse_status r status Hs) as [-> | [-> | ->]]; discriminate.
    + now apply app_request_refused.
  - intros text Hb Hne Hbad. eexists. split.
    + now apply (malformed_refused r text).
    + destruct (json_limit <? _)%Z; auto.
Qed.

(** C6, as the program has it: when the transport throws while handling
    a [POST] request the body parser has handed on, the callback prints
    the fault and completes normally; the response becomes status 500 with
    the envelope of code -32603 and message [Internal server error] if no
    part of a response has gone out, and stays as the transport left it
    otherwise.  A request the parser refuses is answered with the
    parser's status, which is not 500, and the transport does not run; a
    body that is not a JSON text is such a request.  No [POST] request
    makes the handling throw. *)
Theorem post_after_body_parser (r : HttpRequest) (w : World) :
  (forall b e w1,
     express_json JSON_parse skipped_body r = Pass b ->
     handleRequest {| req_headers := http_headers r; req_body := b |} b
       (received {| req_headers := http_headers r; req_body := b |} w)
     = (Throw e, w1) ->
     app_request handleRequest JSON_parse skipped_body express_error POST r w
     = (Normal tt,
        {| console := console w1 ++
             [{| stream := StdErr;
                 args := [Some (JStr "Error handling MCP request:"); Some e] |}];
           res := if headersSent (res w1) then res w1
                  else Ended 500 (envelope_text "-32603" "Internal server error");
           listening := listening w1 |})) /\
  (forall status,
     express_json JSON_parse skipped_body r = Refuse status ->
     status <> 500 /\
     app_request handleRequest JSON_parse skipped_body express_error POST r w
     = (Normal tt,
        {| console := console w ++ fst (express_error r status);
           res := Ended status (snd (express_error r status));
           listening := listening w |})) /\
  (forall text,
     http_body r = JsonBody text ->
     text <> "" ->
     json_syntax text = false ->
     exists status, express_json JSON_parse skipped_body r = Refuse status /\ (status = 400 \/ status = 413)) /\
  (forall e, fst (app_request handleRequest JSON_parse skipped_body express_error POST r w) <> Throw e).
Proof.
  split; [|split; [|split]].
  - intros b e w1 Hb Hthrow. unfold app_request. rewrite Hb.
    now apply (proj1 (post_callback_fault handleRequest _ w)).
  - intros status Hs. split.
    + destruct (refuse_status r status Hs) as [-> | [-> | ->]]; discriminate.
    + now apply app_request_refused.
  - intros text Hb Hne Hbad. eexists. split.
    + now apply (malformed_refused r text).
    + destruct (json_limit <? _)%Z; auto.
  - intros e. unfold app_request.
    destruct (express_json JSON_parse skipped_body r) as [b|status].
    + apply (proj2 (post_callback_fault handleRequest _ w)).
    + discriminate.
Qed.

End Requests.

(** A [GET] request with the body [{], declared as JSON, is answered with
    status 400 by the error handler of Express, not with 405: the body is
    decoded before the callback could run, and the callback does not. *)
Lemma get_malformed_body_answered_400 :
  app_request (fun _ _ => mret tt) (fun _ => JNull) (Some (JObj []))
    (fun _ _ => ([], "Bad Request")) GET
    {| http_headers := [("content-type", "application/json")];
       http_body := JsonBody "{" |} initial_world
  = (Normal tt,
     {| console := []; res := Ended 400 "Bad Request"; listening := None |}) /\
  Ended 400 "Bad Request" <> Ended 405 (envelope_text "-32000" "Method not allowed.").
Proof. split; [reflexivity | discriminate]. Qed.

Lemma get_delete_after_body_parser_witness :
  app_request (fun _ _ => mret tt) (fun _ => JArr []) (Some (JObj []))
    (fun _ _ => ([], "Bad Request")) DELETE
    {| http_headers := [("content-type", "application/json")];
       http_body := JsonBody "[]" |} initial_world
  = (Normal tt,
     {| console :=
          [{| stream := StdOut; args := [Some (JStr "Received DELETE MCP request")] |}];
        res := Ended 405 (envelope_text "-32000" "Method not allowed.");
        listening := None |}).
Proof.
  apply (proj1 (get_delete_after_body_parser (fun _ _ => mret tt) (fun _ => JArr [])
                  (Some (JObj [])) (fun _ _ => ([], "Bad Request")) DELETE
                  {| http_headers := [("content-type", "application/json")];
                     http_body := JsonBody "[]" |} initial_world
                  (or_intror eq_refl))
           (Some (JArr []))).
  reflexivity.
Defined.

(** A [POST] request with the body [{], declared as JSON, is answered
    with status 400 by the error handler of Express, not with 500 and the
    envelope of code -32603; the transport, which would throw, is not
    reached. *)
Lemma post_malformed_body_answered_400 :
  app_request (fun _ _ => throw (JStr "boom")) (fun _ => JNull) (Some (JObj []))
    (fun _ _ => ([], "Bad Request")) POST
    {| http_headers := [("content-type", "application/json")];
       http_body := JsonBody "{" |} initial_world
  = (Normal tt,
     {| console := []; res := Ended 400 "Bad Request"; listening := None |}) /\
  Ended 400 "Bad Request" <> Ended 500 (envelope_text "-32603" "Internal server error").
Proof. split; [reflexivity | discriminate]. Qed.

Lemma post_after_body_parser_witness :
  app_request (fun _ _ => throw (JStr "boom")) (fun _ => JArr []) (Some (JObj []))
    (fun _ _ => ([], "Bad Request")) POST
    {| http_headers := [("content-type", "application/json")];
       http_body := JsonBody "[]" |} initial_world
  = (Normal tt,
     {| console :=
          [{| stream := StdOut;
              args := [Some (JStr "Received MCP request:"); Some (JArr [])] |};
           {| stream := StdErr;
              args := [Some (JStr "Error handling MCP request:"); Some (JStr "boom")] |}];
        res := Ended 500 (envelope_text "-32603" "Internal server error");
        listening := None |}).
Proof.
  apply (proj1 (post_after_body_parser (fun _ _ => throw (JStr "boom")) (fun _ => JArr [])
                  (Some (JObj [])) (fun _ _ => ([], "Bad Request"))
                  {| http_headers := [("content-type", "application/json")];
                     http_body := JsonBody "[]" |} initial_world)
           (Some (JArr [])) (JStr "boom")
           (received {| req_headers := [("content-type", "application/json")];
                        req_body := Some (JArr []) |} initial_world));
    reflexivity.
Defined.

(** ** Start-up *)

Ltac run_main :=
  unfold main, try_catch, promise_then, bind, setupServer, app_listen.

Lemma main_connected
    (connect : list ConsoleEntry -> Completion unit * list ConsoleEntry)
    (listen : PortValue -> Completion unit)
    (env : gmap string string) (w : World) (c1 : list ConsoleEntry) :
  connect (console w) = (Normal tt, c1) ->
  out_of_range (PORT env) = false ->
  listen (PORT env) = Normal tt ->
  main connect listen env w
  = (Normal tt,
     {| console := c1 ++
          [{| stream := StdOut;
              args := [Some (JStr ("MCP Context7 Server listening on port "
                                     +:+ port_text (PORT env)))] |}];
        res := res w;
        listening := Some (PORT env) |}).
Proof.
  intros Hc Hrange Hl. run_main. rewrite Hc. simpl. rewrite Hrange, Hl. reflexivity.
Qed.

Lemma main_port_given
    (connect : list ConsoleEntry -> Completion unit * list ConsoleEntry)
    (listen : PortValue -> Completion unit)
    (env : gmap string string) (w : World) (c1 : list ConsoleEntry) :
  connect (console w) = (Normal tt, c1) ->
  listening (snd (main connect listen env w)) = Some (PORT env).
Proof.
  intros Hc. run_main. rewrite Hc. simpl.
  destruct (out_of_range (PORT env)); [reflexivity|].
  destruct (listen (PORT env)) as [[]|e|code]; reflexivity.
Qed.

Lemma main_bad_port
    (connect : list ConsoleEntry -> Completion unit * list ConsoleEntry)
    (listen : PortValue -> Completion unit)
    (env : gmap string string) (w : World) (c1 : list ConsoleEntry) :
  connect (console w) = (Normal tt, c1) ->
  out_of_range (PORT env) = true ->
  main connect listen env w
  = (Exited 1,
     {| console := c1 ++
          [{| stream := StdErr;
              args := [Some (JStr "Failed to set up the server:");
                       Some ERR_SOCKET_BAD_PORT] |}];
        res := res w;
        listening := Some (PORT env) |}).
Proof.
  intros Hc Hrange. run_main. rewrite Hc. simpl. rewrite Hrange. reflexivity.
Qed.

(** C7: the endpoint is given a port to listen on only if the connection
    of the registry to the transport completed, and then in the world
    the connection left; when the port is one it can bind, it listens and
    says so.  If the connection is rejected, the process prints the
    failure on the error stream and ends with exit status 1, and the
    endpoint is not listening. *)
Theorem startup_connects_before_listening
    (connect : list ConsoleEntry -> Completion unit * list ConsoleEntry)
    (listen : PortValue -> Completion unit)
    (env : gmap string string) (w : World) :
  listening w = None ->
  (forall c1,
     connect (console w) = (Normal tt, c1) ->
     out_of_range (PORT env) = false ->
     listen (PORT env) = Normal tt ->
     main connect listen env w
     = (Normal tt,
        {| console := c1 ++
             [{| stream := StdOut;
                 args := [Some (JStr ("MCP Context7 Server listening on port "
                                        +:+ port_text (PORT env)))] |}];
           res := res w;
           listening := Some (PORT env) |})) /\
  (forall e c1,
     connect (console w) = (Throw e, c1) ->
     main connect listen env w
     = (Exited 1,
        {| console := c1 ++
             [{| stream := StdErr;
                 args := [Some (JStr "Failed to set up the server:"); Some e] |}];
           res := res w;
           listening := None |})) /\
  (is_Some (listening (snd (main connect listen env w))) ->
   exists c1, connect (console w) = (Normal tt, c1)).
Proof.
  intros Hl. split; [|split].
  - intros c1 Hc Hrange Hlisten. now apply main_connected.
  - intros e c1 Hc. run_main. rewrite Hc. rewrite <- Hl. reflexivity.
  - run_main. destruct (connect (console w)) as [[[]|e|code] c1].
    + intros _. now exists c1.
    + intros [p Hp]. change (listening w = Some p) in Hp. congruence.
    + intros [p Hp]. change (listening w = Some p) in Hp. congruence.
Qed.

Lemma startup_connects_before_listening_witness :
  main (fun c => (Throw (JStr "ECONNREFUSED"), c)) (fun _ => Normal tt) ∅ initial_world
  = (Exited 1,
     {| console :=
          [{| stream := StdErr;
              args := [Some (JStr "Failed to set up the server:");
                       Some (JStr "ECONNREFUSED")] |}];
        res := new_response;
        listening := None |}) /\
  main (fun c => (Normal tt, c)) (fun _ => Normal tt) ∅ initial_world
  = (Normal tt,
     {| console :=
          [{| stream := StdOut;
              args := [Some (JStr "MCP Context7 Server listening on port 3000")] |}];
        res := new_response;
        listening := Some (PortNumber 3000) |}).
Proof.
  split.
  - apply (proj1 (proj2 (startup_connects_before_listening
                           (fun c => (Throw (JStr "ECONNREFUSED"), c)) (fun _ => Normal tt)
                           ∅ initial_world eq_refl))
             (JStr "ECONNREFUSED") []).
    reflexivity.
  - exact (proj1 (startup_connects_before_listening
                    (fun c => (Normal tt, c)) (fun _ => Normal tt) ∅ initial_world eq_refl)
             [] eq_refl eq_refl eq_refl).
Defined.

Lemma PORT_empty_string (env : gmap string string) :
  env !! "PORT" = Some "" -> PORT env = PortNumber 3000.
Proof. intros H. unfold PORT. now rewrite H. Qed.

(** C8: the port the endpoint listens on is read from the one environment
    variable [PORT]: it is the number 3000 when [PORT] is unset, the value
    of [PORT] when that is a non-empty string, and no other variable of
    the environment bears on it. *)
Theorem port_from_environment
    (connect : list ConsoleEntry -> Completion unit * list ConsoleEntry)
    (listen : PortValue -> Completion unit)
    (env : gmap string string) (w : World) (c1 : list ConsoleEntry) :
  connect (console w) = (Normal tt, c1) ->
  (env !! "PORT" = None ->
   listening (snd (main connect listen env w)) = Some (PortNumber 3000)) /\
  (forall s, env !! "PORT" = Some s -> s <> "" ->
   listening (snd (main connect listen env w)) = Some (PortString s)) /\
  (forall env' : gmap string string, env' !! "PORT" = env !! "PORT" ->
   main connect listen env' w = main connect listen env w).
Proof.
  intros Hc. split; [|split].
  - intros Hunset. rewrite (main_port_given _ _ _ _ _ Hc).
    unfold PORT. now rewrite Hunset.
  - intros s Hset Hne. rewrite (main_port_given _ _ _ _ _ Hc).
    unfold PORT. rewrite Hset. destruct s; [now destruct Hne | reflexivity].
  - intros env' Heq. unfold main, PORT. now rewrite Heq.
Qed.

Lemma port_from_environment_witness :
  listening (snd (main (fun c => (Normal tt, c)) (fun _ => Normal tt) ∅ initial_world))
  = Some (PortNumber 3000) /\
  listening (snd (main (fun c => (Normal tt, c)) (fun _ => Normal tt)
                    (<["PORT" := "8080"]> (<["HOME" := "/root"]> ∅)) initial_world))
  = Some (PortString "8080").
Proof.
  split.
  - apply (proj1 (port_from_environment (fun c => (Normal tt, c)) (fun _ => Normal tt)
                    ∅ initial_world [] eq_refl)).
    reflexivity.
  - apply (proj1 (proj2 (port_from_environment (fun c => (Normal tt, c))
                           (fun _ => Normal tt)
                           (<["PORT" := "8080"]> (<["HOME" := "/root"]> ∅))
                           initial_world [] eq_refl))
             "8080"); [reflexivity | discriminate].
Defined.

(** * Further properties of the program *)

(** ** More on strings *)

Lemma length_append (a b : string) :
  String.length (a +:+ b) = (String.length a + String.length b)%nat.
Proof.
  induction a as [|x a IH]; [reflexivity|].
  change (S (String.length (a +:+ b)) = S (String.length a + String.length b)).
  now rewrite IH.
Qed.

Lemma append_cancel_l (a b c : string) : a +:+ b = a +:+ c -> b = c.
Proof.
  induction a as [|x a IH]; intros H; [exact H|].
  change (String x (a +:+ b) = String x (a +:+ c)) in H.
  injection H as H. now apply IH.
Qed.

Lemma append_cancel_r (a b c : string) : a +:+ c = b +:+ c -> a = b.
Proof.
  revert b; induction a as [|x a IH]; intros [|y b] H.
  - reflexivity.
  - apply (f_equal String.length) in H. rewrite !length_append in H.
    simpl in H. lia.
  - apply (f_equal String.length) in H. rewrite !length_append in H.
    simpl in H. lia.
  - change (String x (a +:+ c) = String y (b +:+ c)) in H.
    injection H as -> H. f_equal. now apply IH.
Qed.

(** ** The documentation tool on every input *)

(** X1: whatever identifier, topic and [tokens] a [get-library-docs] call
    carries, it completes normally with exactly one text block and no
    error field; the text is not empty and holds the identifier.  The
    call prints one line on stdout and leaves the response object and the
    listener as they were. *)
Theorem getLibraryDocs_total (p : GetLibraryDocsParams) (w : World) :
  exists r text line,
    getLibraryDocs p w
    = (Normal r,
       {| console := console w ++ [{| stream := StdOut; args := [Some (JStr line)] |}];
          res := res w;
          listening := listening w |}) /\
    text_blocks r = Some [text] /\
    get_prop "error" r = None /\
    get_prop "isError" r = None /\
    text <> "" /\
    Contains text (context7CompatibleLibraryID p) /\
    Contains line (context7CompatibleLibraryID p).
Proof.
  eexists. eexists. eexists. split; [reflexivity|]. split; [reflexivity|].
  split; [reflexivity|]. split; [reflexivity|]. split; [discriminate|]. split.
  - unfold mockDocumentation. do 2 apply Contains_app_r. apply Contains_app_l.
  - apply Contains_app_r. apply Contains_app_l.
Qed.

(** X2: a topic that is not the empty string is echoed as it is, in the
    topic line of the text and in the console line. *)
Theorem getLibraryDocs_echoes_topic (p : GetLibraryDocsParams) (t : string) (w : World) :
  topic p = Some t ->
  t <> "" ->
  exists r text,
    fst (getLibraryDocs p w) = Normal r /\
    text_blocks r = Some [text] /\
    Contains text ("      // Topic: " +:+ t +:+ nl) /\
    console (snd (getLibraryDocs p w))
    = (console w ++
        [{| stream := StdOut;
            args := [Some (JStr ("Fetching docs for: " +:+ context7CompatibleLibraryID p
                                   +:+ " with topic: " +:+ t))] |}])%list.
Proof.
  intros Ht Hne.
  assert (Hor : forall d, or_else (topic p) d = t).
  { intros d. rewrite Ht. destruct t; [now destruct Hne | reflexivity]. }
  eexists. eexists. split; [reflexivity|]. split; [reflexivity|]. split.
  - unfold mockDocumentation. rewrite Hor.
    do 4 apply Contains_app_r.
    rewrite (append_assoc _ t), (append_assoc _ nl).
    apply Contains_app_l.
  - unfold getLibraryDocs. simpl. now rewrite Hor.
Qed.

Lemma getLibraryDocs_echoes_topic_witness :
  exists r text,
    fst (getLibraryDocs {| context7CompatibleLibraryID := "/vercel/next.js";
                           topic := Some "middleware"; tokens := Some 100 |}
           initial_world) = Normal r /\
    text_blocks r = Some [text] /\
    Contains text ("      // Topic: " +:+ "middleware" +:+ nl) /\
    console (snd (getLibraryDocs {| context7CompatibleLibraryID := "/vercel/next.js";
                                    topic := Some "middleware"; tokens := Some 100 |}
                    initial_world))
    = (console initial_world ++
        [{| stream := StdOut;
            args := [Some (JStr ("Fetching docs for: " +:+ "/vercel/next.js"
                                   +:+ " with topic: " +:+ "middleware"))] |}])%list.
Proof.
  apply (getLibraryDocs_echoes_topic
           {| context7CompatibleLibraryID := "/vercel/next.js";
              topic := Some "middleware"; tokens := Some 100 |}
           "middleware" initial_world); [reflexivity | discriminate].
Defined.

(** X3: the text is never cut short: its length is the length of the
    identifier plus the length of the topic shown (the word [General] for
    a missing or empty topic) plus the 273 characters of the template,
    whatever [tokens] says. *)
Theorem mockDocumentation_length (p : GetLibraryDocsParams) :
  String.length (mockDocumentation p)
  = (273 + String.length (context7CompatibleLibraryID p)
     + String.length (match topic p with
                      | Some (String c t) => String c t
                      | _ => "General"
                      end))%nat.
Proof.
  unfold mockDocumentation.
  replace (or_else (topic p) "General")
    with (match topic p with Some (String c t) => String c t | _ => "General" end)
    by (now destruct (topic p) as [[|c t]|]).
  rewrite !length_append. simpl String.length. lia.
Qed.

(** X4: what the text tells about the call.  For the same topic, two
    calls give the same text only if their identifiers are equal; for the
    same identifier, only if their topics are equal once a missing or
    empty topic is read as [General].  Identifier and topic together are
    not determined: a line break in the identifier can stand for the
    topic line. *)
Theorem mockDocumentation_injective :
  (forall p1 p2,
     topic p1 = topic p2 ->
     mockDocumentation p1 = mockDocumentation p2 ->
     context7CompatibleLibraryID p1 = context7CompatibleLibraryID p2) /\
  (forall p1 p2,
     context7CompatibleLibraryID p1 = context7CompatibleLibraryID p2 ->
     mockDocumentation p1 = mockDocumentation p2 ->
     or_else (topic p1) "General" = or_else (topic p2) "General") /\
  (exists p1 p2,
     mockDocumentation p1 = mockDocumentation p2 /\
     context7CompatibleLibraryID p1 <> context7CompatibleLibraryID p2 /\
     or_else (topic p1) "General" <> or_else (topic p2) "General").
Proof.
  split; [|split].
  - intros p1 p2 Ht H. unfold mockDocumentation in H. rewrite Ht in H.
    do 2 apply append_cancel_l in H. now apply append_cancel_r in H.
  - intros p1 p2 Hid H. unfold mockDocumentation in H. rewrite Hid in H.
    do 5 apply append_cancel_l in H. now apply append_cancel_r in H.
  - exists {| context7CompatibleLibraryID := "a" +:+ nl +:+ "      // Topic: x";
              topic := None; tokens := None |},
           {| context7CompatibleLibraryID := "a";
              topic := Some ("x" +:+ nl +:+ "      // Topic: General"); tokens := None |}.
    split; [reflexivity|]. split; discriminate.
Qed.

Lemma mockDocumentation_injective_witness :
  context7CompatibleLibraryID
    {| context7CompatibleLibraryID := "/vercel/next.js"; topic := None; tokens := Some 1 |}
  = context7CompatibleLibraryID
      {| context7CompatibleLibraryID := "/vercel/next.js"; topic := None; tokens := Some 2 |}.
Proof.
  apply (proj1 mockDocumentation_injective); reflexivity.
Defined.

(** ** The resolver's console line *)

(** X5: the library name of a [resolve-library-id] call shows on the
    console and nowhere else: two calls return the same result, and they
    leave the same world only if they carry the same name. *)
Theorem resolveLibraryId_name_on_console (p1 p2 : ResolveLibraryIdParams) (w : World) :
  fst (resolveLibraryId p1 w) = fst (resolveLibraryId p2 w) /\
  res (snd (resolveLibraryId p1 w)) = res w /\
  listening (snd (resolveLibraryId p1 w)) = listening w /\
  (snd (resolveLibraryId p1 w) = snd (resolveLibraryId p2 w) ->
   libraryName p1 = libraryName p2).
Proof.
  split; [reflexivity|]. split; [reflexivity|]. split; [reflexivity|].
  intros H. apply (f_equal console) in H. simpl in H.
  apply app_inv_head in H. injection H as H.
  now apply append_cancel_l in H.
Qed.

Lemma resolveLibraryId_name_on_console_witness :
  libraryName {| libraryName := "React" |} = libraryName {| libraryName := "React" |}.
Proof.
  apply (proj2 (proj2 (proj2 (resolveLibraryId_name_on_console
                                {| libraryName := "React" |} {| libraryName := "React" |}
                                initial_world)))).
  reflexivity.
Defined.

(** ** The two tools in sequence *)

(** X6: the identifier a [resolve-library-id] result carries, given to
    [get-library-docs] with any topic and any [tokens], yields a text
    that holds [/nextjs/nextjs/v14], whatever library name was resolved. *)
Theorem resolve_then_docs (name : ResolveLibraryIdParams) (w : World)
    (r : Json) (id : string) (tp : option string) (tk : option Z) (w' : World) :
  fst (resolveLibraryId name w) = Normal r ->
  text_blocks r = Some [id] ->
  exists r' text,
    fst (getLibraryDocs
           {| context7CompatibleLibraryID := id; topic := tp; tokens := tk |} w')
    = Normal r' /\
    text_blocks r' = Some [text] /\
    Contains text "/nextjs/nextjs/v14".
Proof.
  intros Hr Hid. simpl in Hr. injection Hr as <-.
  injection Hid as <-.
  eexists. eexists. split; [reflexivity|]. split; [reflexivity|].
  unfold mockDocumentation. simpl context7CompatibleLibraryID.
  do 2 apply Contains_app_r. apply Contains_app_l.
Qed.

Lemma resolve_then_docs_witness :
  exists r' text,
    fst (getLibraryDocs
           {| context7CompatibleLibraryID := "/nextjs/nextjs/v14";
              topic := Some "routing"; tokens := None |} initial_world)
    = Normal r' /\
    text_blocks r' = Some [text] /\
    Contains text "/nextjs/nextjs/v14".
Proof.
  apply (resolve_then_docs {| libraryName := "React" |} initial_world
           (JObj [("content", JArr [text_block "/nextjs/nextjs/v14"])])
           "/nextjs/nextjs/v14" (Some "routing") None initial_world);
    reflexivity.
Defined.

(** ** The [POST] route without a fault *)

(** X7: when the transport does not throw, the [POST] callback adds
    nothing: the request completes as the transport completed and the
    world, response included, is the one the transport left. *)
Theorem post_passes_transport_outcome
    (handleRequest : Request -> option Json -> M unit) (req : Request)
    (w w1 : World) (c : Completion unit) :
  handleRequest req (req_body req) (received req w) = (c, w1) ->
  (forall e, c <> Throw e) ->
  serve handleRequest POST req w = (c, w1).
Proof.
  intros Hrun Hc.
  unfold serve, route, post_mcp, mbind, M_bind, bind, try_catch.
  simpl. fold (received req w). rewrite Hrun.
  destruct c as [[]|e|code]; [reflexivity | now destruct (Hc e) | reflexivity].
Qed.

Lemma post_passes_transport_outcome_witness :
  serve (fun _ _ => res_writeHead 200 ;; res_end "ok") POST
    {| req_headers := []; req_body := Some JNull |} initial_world
  = (Normal tt,
     {| console :=
          [{| stream := StdOut;
              args := [Some (JStr "Received MCP request:"); Some JNull] |}];
        res := Ended 200 "ok";
        listening := None |}).
Proof.
  apply (post_passes_transport_outcome
           (fun _ _ => res_writeHead 200 ;; res_end "ok")
           {| req_headers := []; req_body := Some JNull |} initial_world);
    [reflexivity | discriminate].
Defined.

(** ** How start-up completes *)

(** X8: start-up never ends in a rejection.  It completes normally
    exactly when the connection step completes and the endpoint then
    listens.  It ends the process with status 1 when the connection step
    is rejected or [app.listen] throws, as it does on a port number out
    of range, which is then reported as a failure to set up the server;
    otherwise it ends the process only with the status the connection
    step or the binding ended it with.  The response object is not
    touched. *)
Theorem main_completion
    (connect : list ConsoleEntry -> Completion unit * list ConsoleEntry)
    (listen : PortValue -> Completion unit)
    (env : gmap string string) (w : World) :
  (forall e, fst (main connect listen env w) <> Throw e) /\
  (fst (main connect listen env w) = Normal tt <->
   fst (connect (console w)) = Normal tt /\
   out_of_range (PORT env) = false /\
   listen (PORT env) = Normal tt) /\
  (forall code,
     fst (main connect listen env w) = Exited code ->
     code = 1 /\
     ((exists e, fst (connect (console w)) = Throw e) \/
      fst (connect (console w)) = Normal tt /\
      (out_of_range (PORT env) = true \/ exists e, listen (PORT env) = Throw e)) \/
     fst (connect (console w)) = Exited code \/
     fst (connect (console w)) = Normal tt /\ listen (PORT env) = Exited code) /\
  (forall c1,
     connect (console w) = (Normal tt, c1) ->
     out_of_range (PORT env) = true ->
     main connect listen env w
     = (Exited 1,
        {| console := c1 ++
             [{| stream := StdErr;
                 args := [Some (JStr "Failed to set up the server:");
                          Some ERR_SOCKET_BAD_PORT] |}];
           res := res w;
           listening := Some (PORT env) |})) /\
  res (snd (main connect listen env w)) = res w.
Proof.
  split; [|split; [|split; [|split]]].
  - intros e. run_main.
    destruct (connect (console w)) as [[[]|e1|code] c1]; simpl; try discriminate.
    destruct (out_of_range (PORT env)); [discriminate|].
    destruct (listen (PORT env)) as [[]|e2|code]; discriminate.
  - run_main.
    destruct (connect (console w)) as [[[]|e1|code] c1]; simpl.
    + destruct (out_of_range (PORT env)).
      * split; [discriminate | intros (_ & H & _); discriminate].
      * destruct (listen (PORT env)) as [[]|e2|code]; simpl;
          (split; [try discriminate; auto | intros (_ & _ & H); try discriminate; auto]).
    + split; [discriminate | intros (H & _); discriminate].
    + split; [discriminate | intros (H & _); discriminate].
  - intros code. run_main.
    destruct (connect (console w)) as [[[]|e1|code1] c1]; simpl.
    + destruct (out_of_range (PORT env)).
      * intros [= <-]. left. split; [reflexivity|]. right. auto.
      * destruct (listen (PORT env)) as [[]|e2|code2]; simpl.
        -- discriminate.
        -- intros [= <-]. left. split; [reflexivity|]. right. split; [reflexivity|].
           right. now exists e2.
        -- intros [= <-]. right. right. auto.
    + intros [= <-]. left. split; [reflexivity|]. left. now exists e1.
    + intros [= <-]. right. left. reflexivity.
  - intros c1 Hc Hrange. now apply main_bad_port.
  - run_main.
    destruct (connect (console w)) as [[[]|e1|code] c1]; simpl; try reflexivity.
    destruct (out_of_range (PORT env)); [reflexivity|].
    destruct (listen (PORT env)) as [[]|e2|code]; reflexivity.
Qed.

Lemma main_completion_witness :
  main (fun c => (Normal tt, c)) (fun _ => Normal tt) (<["PORT" := "99999"]> ∅)
    initial_world
  = (Exited 1,
     {| console :=
          [{| stream := StdErr;
              args := [Some (JStr "Failed to set up the server:");
                       Some ERR_SOCKET_BAD_PORT] |}];
        res := new_response;
        listening := Some (PortString "99999") |}).
Proof.
  exact (proj1 (proj2 (proj2 (proj2 (main_completion
                  (fun c => (Normal tt, c)) (fun _ => Normal tt)
                  (<["PORT" := "99999"]> ∅) initial_world))))
           [] eq_refl eq_refl).
Defined.

(** ** The port at the edges *)

(** X9: after a start-up whose connection step completed, the endpoint
    listens on the number 3000 when [PORT] is set to the empty string, as
    when it is unset; on any other value of [PORT] as the string it is,
    digits or not; and the port is never the empty string. *)
Theorem port_edge_cases
    (connect : list ConsoleEntry -> Completion unit * list ConsoleEntry)
    (listen : PortValue -> Completion unit)
    (env : gmap string string) (w : World) (c1 : list ConsoleEntry) :
  connect (console w) = (Normal tt, c1) ->
  exists p,
    listening (snd (main connect listen env w)) = Some p /\
    port_text p <> "" /\
    (env !! "PORT" = Some "" -> p = PortNumber 3000) /\
    (forall n, p = PortNumber n -> n = 3000 /\ (env !! "PORT" = None \/ env !! "PORT" = Some "")) /\
    (forall s, p = PortString s -> env !! "PORT" = Some s).
Proof.
  intros Hc. exists (PORT env). rewrite (main_port_given _ _ _ _ _ Hc).
  split; [reflexivity|]. unfold PORT.
  destruct (env !! "PORT") as [[|ch s]|]; repeat split;
    try discriminate; try (intros; congruence); auto.
Qed.

Lemma port_edge_cases_witness :
  exists p,
    listening (snd (main (fun c => (Normal tt, c)) (fun _ => Normal tt)
                      (<["PORT" := ""]> ∅) initial_world))
    = Some p /\
    port_text p <> "" /\
    ((<["PORT" := ""]> ∅ : gmap string string) !! "PORT" = Some "" -> p = PortNumber 3000) /\
    (forall n, p = PortNumber n ->
       n = 3000 /\ ((<["PORT" := ""]> ∅ : gmap string string) !! "PORT" = None \/
                    (<["PORT" := ""]> ∅ : gmap string string) !! "PORT" = Some "")) /\
    (forall s, p = PortString s ->
       (<["PORT" := ""]> ∅ : gmap string string) !! "PORT" = Some s).
Proof.
  apply (port_edge_cases (fun c => (Normal tt, c)) (fun _ => Normal tt)
           (<["PORT" := ""]> ∅) initial_world []).
  reflexivity.
Defined.
